(** * qmk_accessibility_hid: the accessibility event notifier

    A shallow embedding of [accessibility_events.c] and the properties of
    its four entry points: the raw HID command handler, the debounced
    layer-change notification and the two Caps Word notifications
    (the file is modelled with CAPS_WORD_ENABLE defined; the
    CONSOLE_ENABLE [uprintf] calls only log and are left out). *)

From Stdlib Require Import ZArith Lia List Sorted.
From stdpp Require Import base numbers list.

Local Open Scope Z_scope.

(** ** Machine integers

    [uint8_t] and [uint32_t] values are integers of [Z]; the only
    arithmetic of the file, the unsigned 32-bit subtraction of the
    debounce test, has its wrap-around written out. *)

Definition is_uint8 (z : Z) : Prop := 0 <= z < 2 ^ 8.
Definition is_uint32 (z : Z) : Prop := 0 <= z < 2 ^ 32.

(** [a - b] on two [uint32_t] operands. *)
Definition sub32 (a b : Z) : Z := (a - b) mod 2 ^ 32.

(** ** Reports, firmware and the statics of the file *)

(** A raw HID report: the bytes handed to [raw_hid_send]. *)
Definition report := list Z.

(** What the surrounding firmware shows to one call: the value
    [timer_read()] yields, as held by [uint32_t current_time], and the
    global [layer_state]. *)
Record firmware := Firmware {
  timer : Z;
  layer_state : Z
}.

(** The statics: [previous_layer], [caps_word_state] and the function
    static [last_time] of [accessibility_send_layer_change]. *)
Record state := State {
  previous_layer : Z;
  caps_word_state : bool;
  last_time : Z
}.

(** [static uint8_t previous_layer = 255; static bool caps_word_state =
    false; static uint32_t last_time = 0;] *)
Definition initial_state : state :=
  {| previous_layer := 255; caps_word_state := false; last_time := 0 |}.

Definition set_previous_layer (v : Z) (s : state) : state :=
  {| previous_layer := v;
     caps_word_state := caps_word_state s;
     last_time := last_time s |}.

Definition set_caps_word_state (v : bool) (s : state) : state :=
  {| previous_layer := previous_layer s;
     caps_word_state := v;
     last_time := last_time s |}.

Definition set_last_time (v : Z) (s : state) : state :=
  {| previous_layer := previous_layer s;
     caps_word_state := caps_word_state s;
     last_time := v |}.

(** ** The monad of a call

    A call reads the firmware, threads the statics and appends to the
    reports written to the transport; [None] is a read outside the
    buffer the caller passed, which C leaves undefined. *)

Definition M (A : Type) : Type :=
  firmware -> state -> option (A * state * list report).

Definition ret {A : Type} (a : A) : M A :=
  fun _ s => Some (a, s, []).

Definition bind {A B : Type} (m : M A) (k : A -> M B) : M B :=
  fun fw s =>
    match m fw s with
    | None => None
    | Some (a, s1, out1) =>
        match k a fw s1 with
        | None => None
        | Some (b, s2, out2) => Some (b, s2, out1 ++ out2)
        end
    end.

Declare Scope notifier_scope.
Delimit Scope notifier_scope with notifier.
Notation "x <- m ;; k" := (bind m (fun x => k))
  (at level 100, m at next level, right associativity) : notifier_scope.
Notation "m ;; k" := (bind m (fun _ => k))
  (at level 100, right associativity) : notifier_scope.
Local Open Scope notifier_scope.

Definition gets {A : Type} (f : state -> A) : M A :=
  fun _ s => Some (f s, s, []).

Definition modify (f : state -> state) : M unit :=
  fun _ s => Some (tt, f s, []).

(** [data[i]] read from a buffer passed by pointer. *)
Definition load (data : list Z) (i : nat) : M Z :=
  fun _ s =>
    match data !! i with
    | Some b => Some (b, s, [])
    | None => None
    end.

(** [timer_read()] *)
Definition timer_read : M Z :=
  fun fw s => Some (timer fw, s, []).

(** The global [layer_state]. *)
Definition read_layer_state : M Z :=
  fun fw s => Some (layer_state fw, s, []).

(** [sizeof] of a local byte array. *)
Definition sizeof (data : list Z) : Z := Z.of_nat (length data).

(** [raw_hid_send(data, length)]: the transport write of the first
    [length] bytes of [data]; nothing comes back from it. *)
Definition raw_hid_send (data : list Z) (length : Z) : M unit :=
  fun _ s => Some (tt, s, [take (Z.to_nat length) data]).

(** ** The source functions *)

Section Notifier.

(** [get_highest_layer] of the firmware's [quantum.h]: from a layer
    state to the index of its highest active layer, a [uint8_t]. *)
Variable get_highest_layer : Z -> Z.

Definition raw_hid_receive (data : list Z) (length : Z) : M unit :=
  byte0 <- load data 0 ;;
  if byte0 =? 99 then
    let response := replicate 32 0 in
    let response := <[0%nat := 99]> response in
    ls <- read_layer_state ;;
    let response := <[1%nat := get_highest_layer ls]> response in
    raw_hid_send response (sizeof response)
  else ret tt.

Definition accessibility_send_layer_change (layer : Z) : M unit :=
  current_time <- timer_read ;;
  last <- gets last_time ;;
  if sub32 current_time last <? 200 then ret tt
  else
    previous <- gets previous_layer ;;
    (if negb (layer =? previous) then
       let data := replicate 32 0 in
       let data := <[0%nat := 1]> data in
       let data := <[1%nat := layer]> data in
       raw_hid_send data (sizeof data) ;;
       modify (set_previous_layer layer)
     else ret tt) ;;
    modify (set_last_time current_time).

Definition accessibility_send_caps_word_on : M unit :=
  on <- gets caps_word_state ;;
  if negb on then
    let data := replicate 32 0 in
    let data := <[0%nat := 2]> data in
    let data := <[1%nat := 1]> data in
    raw_hid_send data (sizeof data) ;;
    modify (set_caps_word_state true)
  else ret tt.

Definition accessibility_send_caps_word_off : M unit :=
  on <- gets caps_word_state ;;
  if on then
    let data := replicate 32 0 in
    let data := <[0%nat := 2]> data in
    let data := <[1%nat := 0]> data in
    raw_hid_send data (sizeof data) ;;
    modify (set_caps_word_state false)
  else ret tt.

(** ** The firmware's run loop

    The firmware drives the notifier: each hook or received packet is
    one call, made with the clock and layer state of that moment. *)

Inductive call : Type :=
| LayerChange (layer : Z)
| CapsWordOn
| CapsWordOff
| Receive (data : list Z) (length : Z).

Definition dispatch (c : call) : M unit :=
  match c with
  | LayerChange layer => accessibility_send_layer_change layer
  | CapsWordOn => accessibility_send_caps_word_on
  | CapsWordOff => accessibility_send_caps_word_off
  | Receive data length => raw_hid_receive data length
  end.

(** The transport writes of a run, each with the clock reading of the
    call that made it. *)
Definition stamp (fw : firmware) (out : list report) : list (Z * report) :=
  map (pair (timer fw)) out.

Fixpoint run (cs : list (firmware * call)) (s : state)
  : option (state * list (Z * report)) :=
  match cs with
  | [] => Some (s, [])
  | (fw, c) :: cs' =>
      match dispatch c fw s with
      | None => None
      | Some (_, s1, out1) =>
          match run cs' s1 with
          | None => None
          | Some (s2, out2) => Some (s2, stamp fw out1 ++ out2)
          end
      end
  end.

End Notifier.

(** ** The report layouts *)

(** [[ty, payload, 0 x 30]] *)
Definition report_of (ty payload : Z) : report :=
  ty :: payload :: replicate 30 0.

Definition report_type (r : report) : Z := nth 0 r 0.
Definition report_payload (r : report) : Z := nth 1 r 0.

(** The payload of the last report of type [ty] among [tr], if any. *)
Definition last_sent (ty : Z) (tr : list report) : option Z :=
  fold_left
    (fun acc r => if report_type r =? ty then Some (report_payload r) else acc)
    tr None.

(** The reports and the clock readings of a stamped trace. *)
Definition reports (tr : list (Z * report)) : list report := map snd tr.
Definition write_times (tr : list (Z * report)) : list Z := map fst tr.

(** A sequence of layer-change hooks, each with its firmware snapshot. *)
Definition layer_calls (ls : list (firmware * Z)) : list (firmware * call) :=
  map (fun p => (fst p, LayerChange (snd p))) ls.

(** The clock readings of a sequence of layer-change hooks. *)
Definition clock_readings (ls : list (firmware * Z)) : list Z :=
  map (fun p => timer (fst p)) ls.

(** Any two entries of a list of clock readings, taken in order, are at
    least 200 ms apart. *)
Definition spaced_200 (ts : list Z) : Prop :=
  ForallOrdPairs (fun a b => a + 200 <= b) ts.

(** The statics agree with the transport: [previous_layer] is the layer
    of the last type-1 report written, or still 255 when there is none,
    and [caps_word_state] is the flag of the last type-2 report written,
    or still false when there is none. *)
Definition tracks (s : state) (tr : list report) : Prop :=
  previous_layer s = default 255 (last_sent 1 tr) /\
  caps_word_state s = from_option (Z.eqb 1) false (last_sent 2 tr).

(** A call on a buffer that holds at least its byte 0. *)
Definition well_formed (c : call) : Prop :=
  match c with
  | Receive data _ => data <> []
  | _ => True
  end.

(** ** What a host sees of a run *)

(** The payloads of the reports of type [ty] among [tr], in order. *)
Definition payloads (ty : Z) (tr : list report) : list Z :=
  map report_payload (List.filter (fun r => report_type r =? ty) tr).

(** No entry of [l] repeats the one before it, [previous] standing
    before the first. *)
Fixpoint changes_from (previous : Z) (l : list Z) : Prop :=
  match l with
  | [] => True
  | x :: l' => x <> previous /\ changes_from x l'
  end.

(** [l] is 1, 0, 1, 0, ... when [on] is true and 0, 1, 0, 1, ... when
    it is false. *)
Fixpoint alternates (on : bool) (l : list Z) : Prop :=
  match l with
  | [] => True
  | x :: l' => x = (if on then 1 else 0) /\ alternates (negb on) l'
  end.

(** A well-formed report: 32 bytes, the first one of the three event
    types, all past the second zero. *)
Definition is_report (r : report) : Prop :=
  length r = 32%nat /\
  Forall is_uint8 r /\
  (report_type r = 1 \/ report_type r = 2 \/ report_type r = 99) /\
  drop 2 r = replicate 30 0.

(** The C types of what a call is given: a [uint32_t] clock reading, a
    [uint8_t] layer, a [uint8_t] from [get_highest_layer]. *)
Definition in_range (ghl : Z -> Z) (p : firmware * call) : Prop :=
  is_uint32 (timer (fst p)) /\
  match snd p with
  | LayerChange layer => is_uint8 layer
  | Receive _ _ => is_uint8 (ghl (layer_state (fst p)))
  | _ => True
  end.

Definition in_range_state (s : state) : Prop :=
  is_uint8 (previous_layer s) /\ is_uint32 (last_time s).

Definition is_caps_word (c : call) : Prop :=
  match c with
  | CapsWordOn | CapsWordOff => True
  | _ => False
  end.

(** A received packet that asks for the current layer. *)
Definition is_query (c : call) : Prop :=
  match c with
  | Receive data _ => data !! 0%nat = Some 99
  | _ => False
  end.

(** The reply each query of [cs] gets. *)
Definition replies (ghl : Z -> Z) (cs : list (firmware * call))
  : list (Z * report) :=
  map (fun p => (timer (fst p), report_of 99 (ghl (layer_state (fst p))))) cs.

(** The Caps Word state the calls of [cs] ask for last, [on] when none
    of them is a Caps Word call. *)
Definition asked_caps_word (on : bool) (cs : list (firmware * call)) : bool :=
  fold_left
    (fun acc p =>
       match snd p with
       | CapsWordOn => true
       | CapsWordOff => false
       | _ => acc
       end)
    cs on.

(** * Properties *)

(** ** Reports *)

(** A report built from two bytes is 32 bytes long. *)
Lemma report_of_bytes (ty payload : Z) :
  is_uint8 ty -> is_uint8 payload ->
  length (report_of ty payload) = 32%nat /\
  Forall is_uint8 (report_of ty payload).
Proof.
  intros Hty Hp. split; [reflexivity |].
  unfold report_of. repeat constructor; try (apply Hty || apply Hp);
    unfold is_uint8; lia.
Qed.

(** ** One call of [accessibility_send_layer_change] *)

Lemma layer_change_debounced (layer : Z) (fw : firmware) (s : state) :
  sub32 (timer fw) (last_time s) < 200 ->
  accessibility_send_layer_change layer fw s = Some (tt, s, []).
Proof.
  intros H. unfold accessibility_send_layer_change, bind, timer_read, gets.
  apply Z.ltb_lt in H. rewrite H. reflexivity.
Qed.

Lemma layer_change_sent (layer : Z) (fw : firmware) (s : state) :
  200 <= sub32 (timer fw) (last_time s) ->
  layer <> previous_layer s ->
  accessibility_send_layer_change layer fw s =
    Some (tt, set_last_time (timer fw) (set_previous_layer layer s),
          [report_of 1 layer]).
Proof.
  intros H Hne. unfold accessibility_send_layer_change, bind, timer_read, gets.
  apply Z.ltb_ge in H. rewrite H.
  apply Z.eqb_neq in Hne. rewrite Hne. reflexivity.
Qed.

Lemma layer_change_same (layer : Z) (fw : firmware) (s : state) :
  200 <= sub32 (timer fw) (last_time s) ->
  layer = previous_layer s ->
  accessibility_send_layer_change layer fw s =
    Some (tt, set_last_time (timer fw) s, []).
Proof.
  intros H He. unfold accessibility_send_layer_change, bind, timer_read, gets.
  apply Z.ltb_ge in H. rewrite H.
  apply Z.eqb_eq in He. rewrite He. reflexivity.
Qed.

(** The three ways a call can go: inside the debounce window, past it
    with a new layer, past it with the layer already reported. *)
Lemma layer_change_cases (layer : Z) (fw : firmware) (s : state) :
  (sub32 (timer fw) (last_time s) < 200 /\
   accessibility_send_layer_change layer fw s = Some (tt, s, []))
  \/
  (200 <= sub32 (timer fw) (last_time s) /\ layer <> previous_layer s /\
   accessibility_send_layer_change layer fw s =
     Some (tt, set_last_time (timer fw) (set_previous_layer layer s),
           [report_of 1 layer]))
  \/
  (200 <= sub32 (timer fw) (last_time s) /\ layer = previous_layer s /\
   accessibility_send_layer_change layer fw s =
     Some (tt, set_last_time (timer fw) s, [])).
Proof.
  destruct (Z_lt_le_dec (sub32 (timer fw) (last_time s)) 200) as [Hlt | Hge].
  - left. split; [exact Hlt | now apply layer_change_debounced].
  - right. destruct (Z.eq_dec layer (previous_layer s)) as [He | Hne].
    + right. repeat split; try assumption. now apply layer_change_same.
    + left. repeat split; try assumption. now apply layer_change_sent.
Qed.

Lemma sub32_small (t last : Z) :
  0 <= last -> last <= t -> t < 2 ^ 32 -> sub32 t last = t - last.
Proof. intros H0 H1 H2. unfold sub32. apply Z.mod_small. lia. Qed.

(** ** One call of the Caps Word notifications *)

Lemma caps_word_on_edge (fw : firmware) (s : state) :
  caps_word_state s = false ->
  accessibility_send_caps_word_on fw s =
    Some (tt, set_caps_word_state true s, [report_of 2 1]).
Proof.
  intros H. unfold accessibility_send_caps_word_on, bind, gets.
  rewrite H. reflexivity.
Qed.

Lemma caps_word_on_again (fw : firmware) (s : state) :
  caps_word_state s = true ->
  accessibility_send_caps_word_on fw s = Some (tt, s, []).
Proof.
  intros H. unfold accessibility_send_caps_word_on, bind, gets.
  rewrite H. reflexivity.
Qed.

Lemma caps_word_off_edge (fw : firmware) (s : state) :
  caps_word_state s = true ->
  accessibility_send_caps_word_off fw s =
    Some (tt, set_caps_word_state false s, [report_of 2 0]).
Proof.
  intros H. unfold accessibility_send_caps_word_off, bind, gets.
  rewrite H. reflexivity.
Qed.

Lemma caps_word_off_again (fw : firmware) (s : state) :
  caps_word_state s = false ->
  accessibility_send_caps_word_off fw s = Some (tt, s, []).
Proof.
  intros H. unfold accessibility_send_caps_word_off, bind, gets.
  rewrite H. reflexivity.
Qed.

(** ** One call of [raw_hid_receive] *)

Lemma receive_query (ghl : Z -> Z) (data : list Z) (length : Z)
    (fw : firmware) (s : state) :
  data !! 0%nat = Some 99 ->
  raw_hid_receive ghl data length fw s =
    Some (tt, s, [report_of 99 (ghl (layer_state fw))]).
Proof.
  intros H. unfold raw_hid_receive, bind, load. rewrite H. reflexivity.
Qed.

Lemma receive_other (ghl : Z -> Z) (data : list Z) (length : Z)
    (fw : firmware) (s : state) (b : Z) :
  data !! 0%nat = Some b -> b <> 99 ->
  raw_hid_receive ghl data length fw s = Some (tt, s, []).
Proof.
  intros H Hb. unfold raw_hid_receive, bind, load. rewrite H.
  apply Z.eqb_neq in Hb. rewrite Hb. reflexivity.
Qed.

(** A call returns unless it reads a byte the buffer does not hold. *)
Lemma dispatch_returns (ghl : Z -> Z) (c : call) (fw : firmware) (s : state) :
  well_formed c ->
  exists s' out, dispatch ghl c fw s = Some (tt, s', out).
Proof.
  destruct c as [layer | | | data len]; simpl; intros Hwf.
  - destruct (layer_change_cases layer fw s) as [[_ H] | [[_ [_ H]] | [_ [_ H]]]];
      rewrite H; eauto.
  - destruct (caps_word_state s) eqn:E.
    + rewrite caps_word_on_again by assumption. eauto.
    + rewrite caps_word_on_edge by assumption. eauto.
  - destruct (caps_word_state s) eqn:E.
    + rewrite caps_word_off_edge by assumption. eauto.
    + rewrite caps_word_off_again by assumption. eauto.
  - destruct data as [| b rest]; [congruence |].
    destruct (Z.eq_dec b 99) as [-> | Hb].
    + rewrite receive_query by reflexivity. eauto.
    + rewrite (receive_other ghl (b :: rest) len fw s b) by (reflexivity || assumption).
      eauto.
Qed.

(** * The debounce of [accessibility_send_layer_change] *)

(** C1, as the code has it: a call made inside the debounce window (the
    unsigned 32-bit difference between the clock reading and [last_time]
    is below 200) writes nothing and leaves every static, [last_time]
    included, as it was; only a call made outside the window sets
    [last_time] to the clock reading. *)
Theorem C1_last_time_set_only_past_window :
  forall (layer : Z) (fw : firmware) (s : state),
    (sub32 (timer fw) (last_time s) < 200 ->
     accessibility_send_layer_change layer fw s = Some (tt, s, []))
    /\
    (200 <= sub32 (timer fw) (last_time s) ->
     exists s' out,
       accessibility_send_layer_change layer fw s = Some (tt, s', out) /\
       last_time s' = timer fw).
Proof.
  intros layer fw s. split.
  - apply layer_change_debounced.
  - intros Hge.
    destruct (layer_change_cases layer fw s) as [[Hlt _] | [[_ [_ H]] | [_ [_ H]]]].
    + lia.
    + eexists _, _. split; [exact H | reflexivity].
    + eexists _, _. split; [exact H | reflexivity].
Qed.

Lemma C1_last_time_set_only_past_window_witness :
  accessibility_send_layer_change 4 {| timer := 1150; layer_state := 16 |}
    {| previous_layer := 2; caps_word_state := false; last_time := 1000 |}
  = Some (tt,
          {| previous_layer := 2; caps_word_state := false; last_time := 1000 |},
          []).
Proof.
  apply (C1_last_time_set_only_past_window 4
           {| timer := 1150; layer_state := 16 |}
           {| previous_layer := 2; caps_word_state := false;
              last_time := 1000 |}).
  vm_compute. reflexivity.
Defined.

(** C1 read as stated fails: from the startup statics a call at clock
    reading 50 is inside the window, writes nothing and returns with
    [last_time] still 0, not 50. *)
Lemma C1_counterexample :
  sub32 (timer {| timer := 50; layer_state := 0 |}) (last_time initial_state)
    < 200 /\
  accessibility_send_layer_change 0 {| timer := 50; layer_state := 0 |}
    initial_state = Some (tt, initial_state, []) /\
  last_time initial_state <> timer {| timer := 50; layer_state := 0 |}.
Proof.
  split; [vm_compute; reflexivity |].
  split; [vm_compute; reflexivity |].
  simpl. lia.
Qed.

(** C2, as the code has it.  At startup [last_time] is 0, so a call at
    clock reading 0 is inside the debounce window and writes nothing, and
    of three calls at 0, 150 and 210 only the third writes (its layer not
    being 255).  When the first call comes at a reading [T] of 200 or
    more, it writes [[1, l1, 0 x 30]] (for [l1] other than 255), the call
    at [T + 150] writes nothing, and the call at [T + 210] writes
    [[1, l3, 0 x 30]] when [l3] differs from [l1]. *)
Theorem C2_startup_and_debounce :
  forall (ghl : Z -> Z) (l1 l2 l3 ls1 ls2 ls3 : Z),
    accessibility_send_layer_change l1 {| timer := 0; layer_state := ls1 |}
      initial_state = Some (tt, initial_state, [])
    /\
    (l3 <> 255 ->
     run ghl [({| timer := 0; layer_state := ls1 |}, LayerChange l1);
              ({| timer := 150; layer_state := ls2 |}, LayerChange l2);
              ({| timer := 210; layer_state := ls3 |}, LayerChange l3)]
       initial_state
     = Some ({| previous_layer := l3; caps_word_state := false;
                last_time := 210 |},
             [(210, report_of 1 l3)]))
    /\
    (forall T : Z,
       200 <= T -> T + 210 < 2 ^ 32 -> l1 <> 255 -> l3 <> l1 ->
       run ghl [({| timer := T; layer_state := ls1 |}, LayerChange l1);
                ({| timer := T + 150; layer_state := ls2 |}, LayerChange l2);
                ({| timer := T + 210; layer_state := ls3 |}, LayerChange l3)]
         initial_state
       = Some ({| previous_layer := l3; caps_word_state := false;
                  last_time := T + 210 |},
               [(T, report_of 1 l1); (T + 210, report_of 1 l3)])).
Proof.
  intros ghl l1 l2 l3 ls1 ls2 ls3.
  assert (H0 : forall l ls,
             accessibility_send_layer_change l {| timer := 0; layer_state := ls |}
               initial_state = Some (tt, initial_state, [])).
  { intros. apply layer_change_debounced. vm_compute. reflexivity. }
  split; [apply H0 |]. split.
  - intros H3. cbn [run dispatch]. rewrite H0.
    rewrite layer_change_debounced by (vm_compute; reflexivity).
    rewrite layer_change_sent by (simpl; (discriminate || assumption)).
    reflexivity.
  - intros T HT Hmax H1 H3. cbn [run dispatch].
    rewrite layer_change_sent
      by (simpl; (assumption || (rewrite sub32_small by lia; lia))).
    rewrite layer_change_debounced
      by (simpl; rewrite sub32_small by lia; lia).
    rewrite layer_change_sent
      by (simpl; (assumption || (rewrite sub32_small by lia; lia))).
    reflexivity.
Qed.

Lemma C2_startup_and_debounce_witness :
  run Z.log2
    [({| timer := 1000; layer_state := 2 |}, LayerChange 1);
     ({| timer := 1000 + 150; layer_state := 4 |}, LayerChange 2);
     ({| timer := 1000 + 210; layer_state := 8 |}, LayerChange 3)]
    initial_state
  = Some ({| previous_layer := 3; caps_word_state := false;
             last_time := 1000 + 210 |},
          [(1000, report_of 1 1); (1000 + 210, report_of 1 3)]).
Proof.
  apply (proj2 (proj2 (C2_startup_and_debounce Z.log2 1 2 3 2 4 8)) 1000);
    lia.
Defined.

(** C2 read as stated fails: at startup, [accessibility_send_layer_change(0)]
    at clock reading 0 writes no report, and of the calls at 0, 150 and
    210 the first writes nothing either. *)
Lemma C2_counterexample :
  accessibility_send_layer_change 0 {| timer := 0; layer_state := 1 |}
    initial_state = Some (tt, initial_state, []) /\
  ~ (exists s',
       accessibility_send_layer_change 0 {| timer := 0; layer_state := 1 |}
         initial_state = Some (tt, s', [report_of 1 0])) /\
  run Z.log2
    [({| timer := 0; layer_state := 1 |}, LayerChange 0);
     ({| timer := 150; layer_state := 2 |}, LayerChange 1);
     ({| timer := 210; layer_state := 4 |}, LayerChange 2)]
    initial_state
  = Some ({| previous_layer := 2; caps_word_state := false; last_time := 210 |},
          [(210, report_of 1 2)]).
Proof.
  split; [vm_compute; reflexivity |].
  split; [| vm_compute; reflexivity].
  intros [s' H]. vm_compute in H. discriminate H.
Qed.

(** C3: past the debounce window a call with a layer other than
    [previous_layer] writes exactly the one 32-byte report
    [[1, layer, 0 x 30]] and leaves [previous_layer] at that layer, and a
    call with the layer [previous_layer] holds writes nothing; so two
    calls in a row for the same layer, at any two clock readings, write
    at most one report, and none when that layer is the one
    [previous_layer] holds. *)
Theorem C3_layer_change_past_window :
  forall (ghl : Z -> Z),
    (forall (layer : Z) (fw : firmware) (s : state),
       200 <= sub32 (timer fw) (last_time s) ->
       (layer <> previous_layer s ->
        exists s',
          accessibility_send_layer_change layer fw s =
            Some (tt, s', [report_of 1 layer]) /\
          length (report_of 1 layer) = 32%nat /\
          previous_layer s' = layer)
       /\
       (layer = previous_layer s ->
        exists s',
          accessibility_send_layer_change layer fw s = Some (tt, s', []) /\
          previous_layer s' = previous_layer s))
    /\
    (forall (layer : Z) (fw1 fw2 : firmware) (s : state),
       exists s' tr,
         run ghl [(fw1, LayerChange layer); (fw2, LayerChange layer)] s
           = Some (s', tr) /\
         (length tr <= 1)%nat /\
         (previous_layer s = layer -> tr = [])).
Proof.
  intros ghl. split.
  - intros layer fw s Hge. split.
    + intros Hne. eexists. split; [now apply layer_change_sent |].
      split; reflexivity.
    + intros He. eexists. split; [now apply layer_change_same |]. reflexivity.
  - intros layer fw1 fw2 s. cbn [run dispatch].
    destruct (layer_change_cases layer fw1 s)
      as [[_ H1] | [[_ [Hne1 H1]] | [_ [He1 H1]]]]; rewrite H1.
    + (* first call debounced *)
      destruct (layer_change_cases layer fw2 s)
        as [[_ H2] | [[_ [Hne2 H2]] | [_ [He2 H2]]]]; rewrite H2;
        eexists _, _; (split; [reflexivity |]); simpl;
        (split; [lia | intros; (reflexivity || congruence)]).
    + (* first call writes: the second finds the layer reported *)
      destruct (layer_change_cases layer fw2
                  (set_last_time (timer fw1) (set_previous_layer layer s)))
        as [[_ H2] | [[_ [Hne2 H2]] | [_ [He2 H2]]]]; rewrite H2.
      * eexists _, _. split; [reflexivity |]. simpl.
        split; [lia | congruence].
      * simpl in Hne2. congruence.
      * eexists _, _. split; [reflexivity |]. simpl.
        split; [lia | congruence].
    + (* first call past the window, layer already reported *)
      destruct (layer_change_cases layer fw2 (set_last_time (timer fw1) s))
        as [[_ H2] | [[_ [Hne2 H2]] | [_ [He2 H2]]]]; rewrite H2.
      * eexists _, _. split; [reflexivity |]. simpl. split; [lia | reflexivity].
      * simpl in Hne2. congruence.
      * eexists _, _. split; [reflexivity |]. simpl. split; [lia | reflexivity].
Qed.

Lemma C3_layer_change_past_window_witness :
  exists s',
    accessibility_send_layer_change 5 {| timer := 1300; layer_state := 32 |}
      {| previous_layer := 2; caps_word_state := true; last_time := 1000 |}
    = Some (tt, s', [report_of 1 5]) /\
    length (report_of 1 5) = 32%nat /\
    previous_layer s' = 5.
Proof.
  apply (proj1 (C3_layer_change_past_window Z.log2) 5
           {| timer := 1300; layer_state := 32 |}
           {| previous_layer := 2; caps_word_state := true;
              last_time := 1000 |}).
  - vm_compute. discriminate.
  - simpl. lia.
Defined.

(** * The statics and the reports written *)

Lemma last_sent_snoc (ty : Z) (tr : list report) (r : report) :
  last_sent ty (tr ++ [r]) =
    if report_type r =? ty then Some (report_payload r) else last_sent ty tr.
Proof. unfold last_sent. rewrite fold_left_app. reflexivity. Qed.

Lemma tracks_initial : tracks initial_state [].
Proof. split; reflexivity. Qed.

(** Every operation keeps the statics in step with what it writes. *)
Lemma dispatch_tracks (ghl : Z -> Z) (c : call) (fw : firmware)
    (s s' : state) (out tr : list report) :
  dispatch ghl c fw s = Some (tt, s', out) ->
  tracks s tr -> tracks s' (tr ++ out).
Proof.
  intros Hc [Hl Hw]. destruct c as [layer | | | data len]; simpl in Hc.
  - destruct (layer_change_cases layer fw s)
      as [[_ H] | [[_ [_ H]] | [_ [_ H]]]];
      rewrite H in Hc; injection Hc as <- <-.
    + rewrite app_nil_r. now split.
    + split; rewrite last_sent_snoc; simpl; [reflexivity | exact Hw].
    + rewrite app_nil_r. now split.
  - destruct (caps_word_state s) eqn:E.
    + rewrite caps_word_on_again in Hc by assumption. injection Hc as <- <-.
      rewrite app_nil_r. split; congruence.
    + rewrite caps_word_on_edge in Hc by assumption. injection Hc as <- <-.
      split; rewrite last_sent_snoc; simpl; [exact Hl | reflexivity].
  - destruct (caps_word_state s) eqn:E.
    + rewrite caps_word_off_edge in Hc by assumption. injection Hc as <- <-.
      split; rewrite last_sent_snoc; simpl; [exact Hl | reflexivity].
    + rewrite caps_word_off_again in Hc by assumption. injection Hc as <- <-.
      rewrite app_nil_r. split; congruence.
  - destruct (data !! 0%nat) as [b |] eqn:Eb.
    + destruct (Z.eq_dec b 99) as [-> | Hb].
      * rewrite receive_query in Hc by assumption. injection Hc as <- <-.
        split; rewrite last_sent_snoc; simpl; assumption.
      * rewrite (receive_other ghl data len fw s b) in Hc by assumption.
        injection Hc as <- <-. rewrite app_nil_r. now split.
    + unfold raw_hid_receive, bind, load in Hc. rewrite Eb in Hc. discriminate.
Qed.

Lemma reports_app (tr1 tr2 : list (Z * report)) :
  reports (tr1 ++ tr2) = reports tr1 ++ reports tr2.
Proof. unfold reports. apply map_app. Qed.

Lemma reports_stamp (fw : firmware) (out : list report) :
  reports (stamp fw out) = out.
Proof.
  unfold reports, stamp. rewrite map_map. simpl. apply map_id.
Qed.

Lemma run_tracks (ghl : Z -> Z) (cs : list (firmware * call)) :
  forall (s s' : state) (tr0 : list report) (tr : list (Z * report)),
    tracks s tr0 -> run ghl cs s = Some (s', tr) ->
    tracks s' (tr0 ++ reports tr).
Proof.
  induction cs as [| [fw c] cs IH]; intros s s' tr0 tr Ht Hr; simpl in Hr.
  - injection Hr as <- <-. simpl. now rewrite app_nil_r.
  - destruct (dispatch ghl c fw s) as [[[[] s1] out1] |] eqn:Ec; [| discriminate].
    destruct (run ghl cs s1) as [[s2 out2] |] eqn:Er; [| discriminate].
    injection Hr as <- <-.
    rewrite reports_app, reports_stamp, app_assoc.
    apply (IH s1); [| exact Er].
    now apply (dispatch_tracks ghl c fw s).
Qed.

(** A run of well-formed calls returns. *)
Lemma run_returns (ghl : Z -> Z) (cs : list (firmware * call)) :
  forall s : state,
    Forall (fun p => well_formed (snd p)) cs ->
    exists s' tr, run ghl cs s = Some (s', tr).
Proof.
  induction cs as [| [fw c] cs IH]; intros s Hwf; simpl.
  - eauto.
  - inversion Hwf as [| ? ? Hc Hcs]; subst. simpl in Hc.
    destruct (dispatch_returns ghl c fw s Hc) as (s1 & out1 & ->).
    destruct (IH s1 Hcs) as (s2 & out2 & ->). eauto.
Qed.

(** A call that writes nothing leaves both statics alone. *)
Lemma dispatch_silent (ghl : Z -> Z) (c : call) (fw : firmware)
    (s s' : state) :
  dispatch ghl c fw s = Some (tt, s', []) ->
  previous_layer s' = previous_layer s /\
  caps_word_state s' = caps_word_state s.
Proof.
  intros Hc. destruct c as [layer | | | data len]; simpl in Hc.
  - destruct (layer_change_cases layer fw s)
      as [[_ H] | [[_ [_ H]] | [_ [_ H]]]];
      rewrite H in Hc; try discriminate; injection Hc as <-; now split.
  - destruct (caps_word_state s) eqn:E.
    + rewrite caps_word_on_again in Hc by assumption. injection Hc as <-.
      now split.
    + rewrite caps_word_on_edge in Hc by assumption. discriminate.
  - destruct (caps_word_state s) eqn:E.
    + rewrite caps_word_off_edge in Hc by assumption. discriminate.
    + rewrite caps_word_off_again in Hc by assumption. injection Hc as <-.
      now split.
  - destruct (data !! 0%nat) as [b |] eqn:Eb.
    + destruct (Z.eq_dec b 99) as [-> | Hb].
      * rewrite receive_query in Hc by assumption. discriminate.
      * rewrite (receive_other ghl data len fw s b) in Hc by assumption.
        injection Hc as <-. now split.
    + unfold raw_hid_receive, bind, load in Hc. rewrite Eb in Hc. discriminate.
Qed.

(** C4: [previous_layer] and [caps_word_state] always hold the value of
    the last report written for their event type, or their initial 255
    and false while no such report has been written: this holds at
    startup, every operation preserves it, and so it holds after every
    run; and a call that writes nothing (debounce, no change, a command
    that is not the query) leaves both unchanged. *)
Theorem C4_statics_track_reports :
  forall (ghl : Z -> Z),
    tracks initial_state []
    /\
    (forall (c : call) (fw : firmware) (s s' : state) (tr out : list report),
       tracks s tr ->
       dispatch ghl c fw s = Some (tt, s', out) ->
       tracks s' (tr ++ out))
    /\
    (forall (cs : list (firmware * call)) (s : state) (tr : list (Z * report)),
       run ghl cs initial_state = Some (s, tr) ->
       tracks s (reports tr))
    /\
    (forall (c : call) (fw : firmware) (s s' : state),
       dispatch ghl c fw s = Some (tt, s', []) ->
       previous_layer s' = previous_layer s /\
       caps_word_state s' = caps_word_state s).
Proof.
  intros ghl. split; [exact tracks_initial |]. split; [| split].
  - intros c fw s s' tr out Ht Hc. exact (dispatch_tracks ghl c fw s s' out tr Hc Ht).
  - intros cs s tr Hr.
    exact (run_tracks ghl cs initial_state s [] tr tracks_initial Hr).
  - intros c fw s s'. apply dispatch_silent.
Qed.

Lemma C4_statics_track_reports_witness :
  tracks {| previous_layer := 3; caps_word_state := true; last_time := 900 |}
    (reports [(300, report_of 1 1); (400, report_of 2 1);
              (500, report_of 99 5); (900, report_of 1 3)]).
Proof.
  apply (proj1 (proj2 (proj2 (C4_statics_track_reports Z.log2)))
           [({| timer := 100; layer_state := 2 |}, LayerChange 1);
            ({| timer := 300; layer_state := 2 |}, LayerChange 1);
            ({| timer := 400; layer_state := 2 |}, CapsWordOn);
            ({| timer := 450; layer_state := 4 |}, LayerChange 2);
            ({| timer := 500; layer_state := 32 |}, Receive [99; 0; 0] 32);
            ({| timer := 600; layer_state := 32 |}, Receive [7; 0; 0] 32);
            ({| timer := 900; layer_state := 8 |}, LayerChange 3)]).
  vm_compute. reflexivity.
Defined.

(** C10: while no layer-change report has been written, which is the
    case at startup, [previous_layer] is still the 255 it was initialised
    to, and [accessibility_send_layer_change(255)] writes nothing at any
    clock reading; the same holds however many such calls are made. *)
Theorem C10_layer_255_never_reported_first :
  forall (ghl : Z -> Z),
    (forall fw : firmware,
       exists s',
         accessibility_send_layer_change 255 fw initial_state
           = Some (tt, s', []) /\
         previous_layer s' = 255)
    /\
    (forall (cs : list (firmware * call)) (s : state) (tr : list (Z * report))
            (fw : firmware),
       run ghl cs initial_state = Some (s, tr) ->
       last_sent 1 (reports tr) = None ->
       exists s',
         accessibility_send_layer_change 255 fw s = Some (tt, s', []) /\
         previous_layer s' = 255)
    /\
    (forall fws : list firmware,
       exists s',
         run ghl (layer_calls (map (fun fw => (fw, 255)) fws)) initial_state
           = Some (s', []) /\
         previous_layer s' = 255).
Proof.
  intros ghl.
  assert (Hone : forall fw s, previous_layer s = 255 ->
            exists s',
              accessibility_send_layer_change 255 fw s = Some (tt, s', []) /\
              previous_layer s' = 255).
  { intros fw s Hp.
    destruct (layer_change_cases 255 fw s)
      as [[_ H] | [[_ [Hne _]] | [_ [_ H]]]].
    - eauto.
    - congruence.
    - eexists. split; [exact H | exact Hp]. }
  split; [| split].
  - intros fw. now apply Hone.
  - intros cs s tr fw Hr Hnone. apply Hone.
    destruct (run_tracks ghl cs initial_state s [] tr tracks_initial Hr)
      as [Hl _].
    simpl in Hl. rewrite Hnone in Hl. exact Hl.
  - intros fws.
    generalize initial_state (eq_refl : previous_layer initial_state = 255).
    induction fws as [| fw fws IH]; intros s Hp.
    + simpl. eauto.
    + cbn [map layer_calls run dispatch fst snd].
      destruct (Hone fw s Hp) as (s1 & -> & Hp1).
      destruct (IH s1 Hp1) as (s2 & Hr & Hp2).
      unfold layer_calls in Hr. rewrite Hr. simpl. eauto.
Qed.

Lemma C10_layer_255_never_reported_first_witness :
  exists s',
    accessibility_send_layer_change 255 {| timer := 1500; layer_state := 0 |}
      {| previous_layer := 255; caps_word_state := true; last_time := 350 |}
    = Some (tt, s', []) /\
    previous_layer s' = 255.
Proof.
  apply (proj1 (proj2 (C10_layer_255_never_reported_first Z.log2))
           [({| timer := 100; layer_state := 0 |}, LayerChange 4);
            ({| timer := 200; layer_state := 0 |}, CapsWordOn);
            ({| timer := 350; layer_state := 0 |}, LayerChange 255);
            ({| timer := 400; layer_state := 16 |}, Receive [99] 1)]
           {| previous_layer := 255; caps_word_state := true; last_time := 350 |}
           [(200, report_of 2 1); (400, report_of 99 4)]).
  - vm_compute. reflexivity.
  - vm_compute. reflexivity.
Defined.

(** * The Caps Word notifications *)

(** C5: the two Caps Word notifications write on a change of
    [caps_word_state] only, whatever the clock readings and [last_time]:
    a second call in a row never adds anything; two
    [accessibility_send_caps_word_on] calls in a row from the off state
    write exactly the one report [[2, 1, 0 x 30]], two
    [accessibility_send_caps_word_off] calls in a row from the on state
    exactly the one report [[2, 0, 0 x 30]], and calls that find the
    state already reached write none; from startup the calls on, on, off,
    off, on write [[2,1,..]], [[2,0,..]], [[2,1,..]] in that order. *)
Theorem C5_caps_word_edge_triggered :
  forall (ghl : Z -> Z),
    (forall (fw1 fw2 : firmware) (s : state),
       run ghl [(fw1, CapsWordOn); (fw2, CapsWordOn)] s
         = run ghl [(fw1, CapsWordOn)] s
       /\
       run ghl [(fw1, CapsWordOff); (fw2, CapsWordOff)] s
         = run ghl [(fw1, CapsWordOff)] s)
    /\
    (forall (fw1 fw2 : firmware) (s : state),
       caps_word_state s = false ->
       run ghl [(fw1, CapsWordOn); (fw2, CapsWordOn)] s
         = Some (set_caps_word_state true s, [(timer fw1, report_of 2 1)])
       /\
       run ghl [(fw1, CapsWordOff); (fw2, CapsWordOff)] s = Some (s, []))
    /\
    (forall (fw1 fw2 : firmware) (s : state),
       caps_word_state s = true ->
       run ghl [(fw1, CapsWordOff); (fw2, CapsWordOff)] s
         = Some (set_caps_word_state false s, [(timer fw1, report_of 2 0)])
       /\
       run ghl [(fw1, CapsWordOn); (fw2, CapsWordOn)] s = Some (s, []))
    /\
    (forall (fw1 fw2 fw3 fw4 fw5 : firmware),
       run ghl [(fw1, CapsWordOn); (fw2, CapsWordOn); (fw3, CapsWordOff);
                (fw4, CapsWordOff); (fw5, CapsWordOn)] initial_state
         = Some (set_caps_word_state true initial_state,
                 [(timer fw1, report_of 2 1); (timer fw3, report_of 2 0);
                  (timer fw5, report_of 2 1)])).
Proof.
  intros ghl.
  assert (Hon : forall fw1 fw2 s, caps_word_state s = false ->
            run ghl [(fw1, CapsWordOn); (fw2, CapsWordOn)] s
              = Some (set_caps_word_state true s, [(timer fw1, report_of 2 1)])).
  { intros fw1 fw2 s E. cbn [run dispatch].
    rewrite caps_word_on_edge by exact E.
    rewrite caps_word_on_again by reflexivity. reflexivity. }
  assert (Hoff : forall fw1 fw2 s, caps_word_state s = true ->
            run ghl [(fw1, CapsWordOff); (fw2, CapsWordOff)] s
              = Some (set_caps_word_state false s, [(timer fw1, report_of 2 0)])).
  { intros fw1 fw2 s E. cbn [run dispatch].
    rewrite caps_word_off_edge by exact E.
    rewrite caps_word_off_again by reflexivity. reflexivity. }
  assert (Hon' : forall fw1 fw2 s, caps_word_state s = true ->
            run ghl [(fw1, CapsWordOn); (fw2, CapsWordOn)] s = Some (s, [])).
  { intros fw1 fw2 s E. cbn [run dispatch].
    rewrite !caps_word_on_again by exact E. reflexivity. }
  assert (Hoff' : forall fw1 fw2 s, caps_word_state s = false ->
            run ghl [(fw1, CapsWordOff); (fw2, CapsWordOff)] s = Some (s, [])).
  { intros fw1 fw2 s E. cbn [run dispatch].
    rewrite !caps_word_off_again by exact E. reflexivity. }
  split; [| split; [| split]].
  - intros fw1 fw2 s. destruct (caps_word_state s) eqn:E.
    + rewrite Hon', Hoff by exact E. cbn [run dispatch].
      rewrite caps_word_on_again, caps_word_off_edge by exact E.
      split; reflexivity.
    + rewrite Hon, Hoff' by exact E. cbn [run dispatch].
      rewrite caps_word_on_edge, caps_word_off_again by exact E.
      split; reflexivity.
  - intros fw1 fw2 s E. split; [now apply Hon | now apply Hoff'].
  - intros fw1 fw2 s E. split; [now apply Hoff | now apply Hon'].
  - intros fw1 fw2 fw3 fw4 fw5. reflexivity.
Qed.

Lemma C5_caps_word_edge_triggered_witness :
  run Z.log2 [({| timer := 10; layer_state := 1 |}, CapsWordOn);
              ({| timer := 11; layer_state := 1 |}, CapsWordOn)]
    {| previous_layer := 4; caps_word_state := false; last_time := 5 |}
    = Some ({| previous_layer := 4; caps_word_state := true; last_time := 5 |},
            [(10, report_of 2 1)]).
Proof.
  apply (proj1 (proj2 (C5_caps_word_edge_triggered Z.log2))
           {| timer := 10; layer_state := 1 |}
           {| timer := 11; layer_state := 1 |}
           {| previous_layer := 4; caps_word_state := false; last_time := 5 |}).
  reflexivity.
Defined.

(** * The command handler *)

(** C6: for a packet whose byte 0 is 99, [raw_hid_receive] returns
    having written exactly one report, the 32 bytes [[99, L, 0 x 30]]
    with [L] the highest layer of the firmware's [layer_state] at the
    call, whatever [previous_layer] holds, and leaves the statics alone;
    when that highest layer is 3 the report is [[99, 3, 0 x 30]]. *)
Theorem C6_query_answered_with_live_layer :
  forall (ghl : Z -> Z) (data : list Z) (length : Z) (fw : firmware)
         (s : state),
    data !! 0%nat = Some 99 ->
    raw_hid_receive ghl data length fw s
      = Some (tt, s, [report_of 99 (ghl (layer_state fw))])
    /\
    List.length (report_of 99 (ghl (layer_state fw))) = 32%nat
    /\
    (ghl (layer_state fw) = 3 ->
     raw_hid_receive ghl data length fw s = Some (tt, s, [report_of 99 3])).
Proof.
  intros ghl data len fw s H.
  pose proof (receive_query ghl data len fw s H) as Hq.
  split; [exact Hq |]. split; [reflexivity |].
  intros H3. rewrite Hq, H3. reflexivity.
Qed.

Lemma C6_query_answered_with_live_layer_witness :
  raw_hid_receive Z.log2 (99 :: replicate 31 0) 32
    {| timer := 700; layer_state := 8 |}
    {| previous_layer := 1; caps_word_state := false; last_time := 400 |}
  = Some (tt,
          {| previous_layer := 1; caps_word_state := false; last_time := 400 |},
          [report_of 99 3]).
Proof.
  apply (C6_query_answered_with_live_layer Z.log2 (99 :: replicate 31 0) 32
           {| timer := 700; layer_state := 8 |}
           {| previous_layer := 1; caps_word_state := false;
              last_time := 400 |}).
  - reflexivity.
  - reflexivity.
Defined.

(** C7: for a packet whose byte 0 is not 99, [raw_hid_receive] returns
    normally, writes no report and leaves every static as it was. *)
Theorem C7_other_commands_ignored :
  forall (ghl : Z -> Z) (data : list Z) (length : Z) (fw : firmware)
         (s : state) (b : Z),
    data !! 0%nat = Some b -> b <> 99 ->
    raw_hid_receive ghl data length fw s = Some (tt, s, []).
Proof.
  intros ghl data len fw s b Hb Hne.
  exact (receive_other ghl data len fw s b Hb Hne).
Qed.

Lemma C7_other_commands_ignored_witness :
  raw_hid_receive Z.log2 (7 :: replicate 31 0) 32
    {| timer := 700; layer_state := 8 |} initial_state
  = Some (tt, initial_state, []).
Proof.
  apply (C7_other_commands_ignored Z.log2 (7 :: replicate 31 0) 32
           {| timer := 700; layer_state := 8 |} initial_state 7).
  - reflexivity.
  - lia.
Defined.

(** C9: what [raw_hid_receive] writes and does to the statics is the
    same for any two values of its length parameter, 0 included, and the
    same for any two buffers with the same byte 0. *)
Theorem C9_receive_ignores_length :
  forall (ghl : Z -> Z) (fw : firmware) (s : state),
    (forall (data : list Z) (length1 length2 : Z),
       raw_hid_receive ghl data length1 fw s
         = raw_hid_receive ghl data length2 fw s)
    /\
    (forall (data : list Z),
       raw_hid_receive ghl data 0 fw s
         = raw_hid_receive ghl data (Z.of_nat (List.length data)) fw s)
    /\
    (forall (data1 data2 : list Z) (length1 length2 : Z),
       data1 !! 0%nat = data2 !! 0%nat ->
       raw_hid_receive ghl data1 length1 fw s
         = raw_hid_receive ghl data2 length2 fw s).
Proof.
  intros ghl fw s. split; [| split].
  - intros data length1 length2. reflexivity.
  - intros data. reflexivity.
  - intros data1 data2 length1 length2 H.
    unfold raw_hid_receive, bind, load. rewrite H. reflexivity.
Qed.

(** * The spacing of layer-change reports *)


(** With a clock that never runs backwards, every report of a run of
    layer-change calls is written at least 200 ms after [last_time], and
    the reports are 200 ms apart from one another. *)
Lemma layer_run_spaced (ghl : Z -> Z) (calls : list (firmware * Z)) :
  forall s : state,
    is_uint32 (last_time s) ->
    Forall is_uint32 (clock_readings calls) ->
    StronglySorted Z.le (last_time s :: clock_readings calls) ->
    exists s' tr,
      run ghl (layer_calls calls) s = Some (s', tr) /\
      Forall (fun t => last_time s + 200 <= t) (write_times tr) /\
      spaced_200 (write_times tr).
Proof.
  unfold is_uint32.
  induction calls as [| [fw layer] calls IH]; intros s Hs Hr Hm.
  - simpl. eexists _, _. split; [reflexivity |]. split; constructor.
  - cbn [clock_readings map fst] in Hr, Hm.
    fold (clock_readings calls) in Hr, Hm.
    apply Forall_cons_1 in Hr as [Ht Hr].
    apply StronglySorted_inv in Hm as [Hm Hlast].
    apply Forall_cons_1 in Hlast as [Hle Hlast].
    cbn [layer_calls map run dispatch fst snd]. fold (layer_calls calls).
    destruct (layer_change_cases layer fw s)
      as [[_ H] | [[Hge [_ H]] | [Hge [_ H]]]]; rewrite H.
    + (* debounced: the statics, [last_time] included, are as before *)
      destruct (IH s Hs Hr) as (s' & tr & -> & Hall & Hsp).
      { constructor; [now apply StronglySorted_inv in Hm | exact Hlast]. }
      eexists _, _. split; [reflexivity |]. simpl. now split.
    + (* a report is written at [timer fw] *)
      rewrite sub32_small in Hge by lia.
      destruct (IH (set_last_time (timer fw) (set_previous_layer layer s)))
        as (s' & tr & -> & Hall & Hsp); [exact Ht | exact Hr | exact Hm |].
      simpl in Hall.
      eexists _, _. split; [reflexivity |]. simpl. split.
      * constructor; [lia |].
        eapply Forall_impl; [exact Hall | simpl; intros; lia].
      * constructor; assumption.
    + (* past the window, nothing to report *)
      rewrite sub32_small in Hge by lia.
      destruct (IH (set_last_time (timer fw) s))
        as (s' & tr & -> & Hall & Hsp); [exact Ht | exact Hr | exact Hm |].
      simpl in Hall.
      eexists _, _. split; [reflexivity |]. simpl. split.
      * eapply Forall_impl; [exact Hall | simpl; intros; lia].
      * exact Hsp.
Qed.




(** * Further properties of the four operations *)

(** ** What one call can do *)

(** The five outcomes of a call: nothing written and both reported
    values kept; a layer-change report; a Caps Word on report; a Caps
    Word off report; the reply to a query. *)
Lemma dispatch_outcomes (ghl : Z -> Z) (c : call) (fw : firmware)
    (s s' : state) (out : list report) :
  dispatch ghl c fw s = Some (tt, s', out) ->
  (out = [] /\ previous_layer s' = previous_layer s /\
   caps_word_state s' = caps_word_state s /\
   (last_time s' = last_time s \/ last_time s' = timer fw))
  \/
  (exists layer, c = LayerChange layer /\ out = [report_of 1 layer] /\
     layer <> previous_layer s /\ previous_layer s' = layer /\
     caps_word_state s' = caps_word_state s /\ last_time s' = timer fw)
  \/
  (c = CapsWordOn /\ out = [report_of 2 1] /\ caps_word_state s = false /\
   s' = set_caps_word_state true s)
  \/
  (c = CapsWordOff /\ out = [report_of 2 0] /\ caps_word_state s = true /\
   s' = set_caps_word_state false s)
  \/
  (exists data len, c = Receive data len /\
     out = [report_of 99 (ghl (layer_state fw))] /\ s' = s).
Proof.
  intros Hc. destruct c as [layer | | | data len]; simpl in Hc.
  - destruct (layer_change_cases layer fw s)
      as [[_ H] | [[_ [Hne H]] | [_ [_ H]]]];
      rewrite H in Hc; injection Hc as <- <-.
    + left. repeat split. now left.
    + right. left. exists layer. repeat split. exact Hne.
    + left. repeat split. now right.
  - destruct (caps_word_state s) eqn:E.
    + rewrite caps_word_on_again in Hc by assumption. injection Hc as <- <-.
      left. repeat split; try assumption. now left.
    + rewrite caps_word_on_edge in Hc by assumption. injection Hc as <- <-.
      right. right. left. now repeat split.
  - destruct (caps_word_state s) eqn:E.
    + rewrite caps_word_off_edge in Hc by assumption. injection Hc as <- <-.
      right. right. right. left. now repeat split.
    + rewrite caps_word_off_again in Hc by assumption. injection Hc as <- <-.
      left. repeat split; try assumption. now left.
  - destruct (data !! 0%nat) as [b |] eqn:Eb.
    + destruct (Z.eq_dec b 99) as [-> | Hb].
      * rewrite receive_query in Hc by assumption. injection Hc as <- <-.
        right. right. right. right. exists data, len. now repeat split.
      * rewrite (receive_other ghl data len fw s b) in Hc by assumption.
        injection Hc as <- <-. left. repeat split. now left.
    + unfold raw_hid_receive, bind, load in Hc. rewrite Eb in Hc. discriminate.
Qed.

Lemma run_cons_inv (ghl : Z -> Z) (fw : firmware) (c : call)
    (cs : list (firmware * call)) (s s' : state) (tr : list (Z * report)) :
  run ghl ((fw, c) :: cs) s = Some (s', tr) ->
  exists s1 out1 tr',
    dispatch ghl c fw s = Some (tt, s1, out1) /\
    run ghl cs s1 = Some (s', tr') /\
    tr = stamp fw out1 ++ tr'.
Proof.
  simpl. intros Hr.
  destruct (dispatch ghl c fw s) as [[[[] s1] out1] |] eqn:Ec; [| discriminate].
  destruct (run ghl cs s1) as [[s2 out2] |] eqn:Er; [| discriminate].
  injection Hr as <- <-. eauto 7.
Qed.

Lemma run_app (ghl : Z -> Z) (cs1 cs2 : list (firmware * call)) :
  forall s : state,
    run ghl (cs1 ++ cs2) s =
      match run ghl cs1 s with
      | None => None
      | Some (s1, tr1) =>
          match run ghl cs2 s1 with
          | None => None
          | Some (s2, tr2) => Some (s2, tr1 ++ tr2)
          end
      end.
Proof.
  induction cs1 as [| [fw c] cs1 IH]; intros s; simpl.
  - destruct (run ghl cs2 s) as [[s2 tr2] |]; reflexivity.
  - destruct (dispatch ghl c fw s) as [[[[] s1] out1] |]; [| reflexivity].
    rewrite IH. destruct (run ghl cs1 s1) as [[s2 tr2] |]; [| reflexivity].
    destruct (run ghl cs2 s2) as [[s3 tr3] |]; [| reflexivity].
    now rewrite app_assoc.
Qed.

Lemma payloads_app (ty : Z) (tr1 tr2 : list report) :
  payloads ty (tr1 ++ tr2) = payloads ty tr1 ++ payloads ty tr2.
Proof. unfold payloads. now rewrite List.filter_app, map_app. Qed.

(** ** The shape of what is written *)

Lemma report_of_is_report (ty payload : Z) :
  ty = 1 \/ ty = 2 \/ ty = 99 -> is_uint8 payload ->
  is_report (report_of ty payload).
Proof.
  intros Hty Hp.
  assert (Hb : is_uint8 ty) by (unfold is_uint8; lia).
  destruct (report_of_bytes ty payload Hb Hp) as [Hlen Hall].
  repeat split; try assumption; try apply Hall.
Qed.

(** X2: given arguments of their C types, a run keeps [previous_layer]
    a [uint8_t] and [last_time] a [uint32_t], and every report it writes
    is 32 bytes of [uint8_t] with type byte 1, 2 or 99 and bytes 2 to 31
    zero. *)
Theorem run_writes_reports (ghl : Z -> Z) (cs : list (firmware * call)) :
  forall (s s' : state) (tr : list (Z * report)),
    in_range_state s ->
    Forall (in_range ghl) cs ->
    run ghl cs s = Some (s', tr) ->
    in_range_state s' /\ Forall is_report (reports tr).
Proof.
  induction cs as [| [fw c] cs IH]; intros s s' tr Hs Hcs Hr.
  - simpl in Hr. injection Hr as <- <-. split; [exact Hs | constructor].
  - apply run_cons_inv in Hr as (s1 & out1 & tr' & Hc & Hr & ->).
    apply Forall_cons_1 in Hcs as [[Ht Harg] Hcs]. simpl in Ht, Harg.
    destruct Hs as [Hp Hl].
    assert (Hstep : in_range_state s1 /\ Forall is_report out1).
    { destruct (dispatch_outcomes ghl c fw s s1 out1 Hc)
        as [(-> & Hp1 & _ & Hl1)
           | [(layer & -> & -> & _ & Hp1 & _ & Hl1)
           | [(-> & -> & _ & ->)
           | [(-> & -> & _ & ->)
           | (data & len & -> & -> & ->)]]]].
      - split; [| constructor]. split; [now rewrite Hp1 |].
        destruct Hl1 as [-> | ->]; assumption.
      - split.
        + split; [now rewrite Hp1 | now rewrite Hl1].
        + constructor; [| constructor].
          apply report_of_is_report; [now left | exact Harg].
      - split; [now split |]. constructor; [| constructor].
        apply report_of_is_report; [now (right; left) | unfold is_uint8; lia].
      - split; [now split |]. constructor; [| constructor].
        apply report_of_is_report; [now (right; left) | unfold is_uint8; lia].
      - split; [now split |]. constructor; [| constructor].
        apply report_of_is_report; [now (right; right) | exact Harg]. }
    destruct Hstep as [Hs1 Hout].
    destruct (IH s1 s' tr' Hs1 Hcs Hr) as [Hs' Htr].
    split; [exact Hs' |].
    rewrite reports_app, reports_stamp. apply Forall_app. now split.
Qed.

Lemma run_writes_reports_witness :
  in_range_state
    {| previous_layer := 3; caps_word_state := true; last_time := 900 |} /\
  Forall is_report
    (reports [(300, report_of 1 1); (400, report_of 2 1);
              (500, report_of 99 5); (900, report_of 1 3)]).
Proof.
  apply (run_writes_reports Z.log2
           [({| timer := 300; layer_state := 2 |}, LayerChange 1);
            ({| timer := 400; layer_state := 2 |}, CapsWordOn);
            ({| timer := 500; layer_state := 32 |}, Receive [99; 0; 0] 32);
            ({| timer := 900; layer_state := 8 |}, LayerChange 3)]
           initial_state).
  - unfold in_range_state, is_uint8, is_uint32. simpl. lia.
  - unfold in_range, is_uint8, is_uint32. repeat constructor; simpl; lia.
  - vm_compute. reflexivity.
Defined.

(** ** No notification is sent twice in a row *)

Lemma run_no_repeats (ghl : Z -> Z) (cs : list (firmware * call)) :
  forall (s s' : state) (tr : list (Z * report)),
    run ghl cs s = Some (s', tr) ->
    changes_from (previous_layer s) (payloads 1 (reports tr)) /\
    alternates (negb (caps_word_state s)) (payloads 2 (reports tr)).
Proof.
  induction cs as [| [fw c] cs IH]; intros s s' tr Hr.
  - simpl in Hr. injection Hr as <- <-. split; exact I.
  - apply run_cons_inv in Hr as (s1 & out1 & tr' & Hc & Hr & ->).
    destruct (IH s1 s' tr' Hr) as [Hl Hw].
    rewrite reports_app, reports_stamp, !payloads_app.
    destruct (dispatch_outcomes ghl c fw s s1 out1 Hc)
      as [(-> & Hp1 & Hw1 & _)
         | [(layer & _ & -> & Hne & Hp1 & Hw1 & _)
         | [(_ & -> & E & ->)
         | [(_ & -> & E & ->)
         | (data & len & _ & -> & ->)]]]].
    + simpl. rewrite <- Hp1, <- Hw1. now split.
    + simpl. rewrite <- Hw1. rewrite Hp1 in Hl. now repeat split.
    + simpl in *. rewrite E. simpl. now repeat split.
    + simpl in *. rewrite E. simpl. now repeat split.
    + simpl. now split.
Qed.

(** X3: in every run the Caps Word reports alternate: from startup, or
    from any statics with Caps Word off, their payloads read 1, 0, 1, 0,
    ... whatever calls are made in between, and from statics with Caps
    Word on they read 0, 1, 0, 1, ... *)
Theorem caps_word_reports_alternate (ghl : Z -> Z)
    (cs : list (firmware * call)) (s s' : state) (tr : list (Z * report)) :
  run ghl cs s = Some (s', tr) ->
  alternates (negb (caps_word_state s)) (payloads 2 (reports tr)).
Proof. intros Hr. exact (proj2 (run_no_repeats ghl cs s s' tr Hr)). Qed.

Lemma caps_word_reports_alternate_witness :
  alternates true
    (payloads 2
       (reports [(1, report_of 2 1); (400, report_of 1 6);
                 (410, report_of 2 0); (420, report_of 99 1);
                 (430, report_of 2 1)])).
Proof.
  apply (caps_word_reports_alternate Z.log2
           [({| timer := 1; layer_state := 2 |}, CapsWordOn);
            ({| timer := 2; layer_state := 2 |}, CapsWordOn);
            ({| timer := 400; layer_state := 2 |}, LayerChange 6);
            ({| timer := 405; layer_state := 2 |}, CapsWordOn);
            ({| timer := 410; layer_state := 2 |}, CapsWordOff);
            ({| timer := 420; layer_state := 2 |}, Receive [99] 1);
            ({| timer := 425; layer_state := 2 |}, CapsWordOff);
            ({| timer := 430; layer_state := 2 |}, CapsWordOn)]
           initial_state
           {| previous_layer := 6; caps_word_state := true; last_time := 400 |}).
  vm_compute. reflexivity.
Defined.

(** X4: in every run no layer-change report carries the layer of the
    layer-change report before it, and the first one does not carry the
    layer [previous_layer] held when the run began (so never 255 from
    startup), whatever the clock readings and the calls in between. *)
Theorem layer_reports_never_repeat (ghl : Z -> Z)
    (cs : list (firmware * call)) (s s' : state) (tr : list (Z * report)) :
  run ghl cs s = Some (s', tr) ->
  changes_from (previous_layer s) (payloads 1 (reports tr)).
Proof. intros Hr. exact (proj1 (run_no_repeats ghl cs s s' tr Hr)). Qed.

Lemma layer_reports_never_repeat_witness :
  changes_from 255
    (payloads 1
       (reports [(300, report_of 1 1); (510, report_of 2 1);
                 (900, report_of 1 0); (1200, report_of 1 1)])).
Proof.
  apply (layer_reports_never_repeat Z.log2
           [({| timer := 300; layer_state := 2 |}, LayerChange 1);
            ({| timer := 400; layer_state := 4 |}, LayerChange 2);
            ({| timer := 510; layer_state := 4 |}, CapsWordOn);
            ({| timer := 600; layer_state := 2 |}, LayerChange 1);
            ({| timer := 900; layer_state := 1 |}, LayerChange 0);
            ({| timer := 1200; layer_state := 2 |}, LayerChange 1)]
           initial_state
           {| previous_layer := 1; caps_word_state := true; last_time := 1200 |}).
  vm_compute. reflexivity.
Defined.

(** ** Calls that can and cannot be left out *)

(** X5: a layer-change call that falls inside the debounce window is
    as if it had not been made: leaving it out of a run changes neither
    the statics the run ends with nor the reports it writes, so the layer
    it carried is lost unless a later call brings it again. *)
Theorem debounced_call_leaves_no_trace (ghl : Z -> Z)
    (cs1 cs2 : list (firmware * call)) (fw : firmware) (layer : Z)
    (s s1 : state) (tr1 : list (Z * report)) :
  run ghl cs1 s = Some (s1, tr1) ->
  sub32 (timer fw) (last_time s1) < 200 ->
  run ghl (cs1 ++ (fw, LayerChange layer) :: cs2) s = run ghl (cs1 ++ cs2) s.
Proof.
  intros H1 Hd. rewrite !run_app, H1. cbn [run dispatch].
  rewrite layer_change_debounced by exact Hd.
  destruct (run ghl cs2 s1) as [[s2 tr2] |]; reflexivity.
Qed.

Lemma debounced_call_leaves_no_trace_witness :
  run Z.log2
    ([({| timer := 300; layer_state := 2 |}, LayerChange 1)]
       ++ ({| timer := 450; layer_state := 4 |}, LayerChange 2)
       :: [({| timer := 520; layer_state := 4 |}, Receive [99] 1)])
    initial_state
  = run Z.log2
      ([({| timer := 300; layer_state := 2 |}, LayerChange 1)]
         ++ [({| timer := 520; layer_state := 4 |}, Receive [99] 1)])
      initial_state.
Proof.
  apply (debounced_call_leaves_no_trace Z.log2
           [({| timer := 300; layer_state := 2 |}, LayerChange 1)]
           [({| timer := 520; layer_state := 4 |}, Receive [99] 1)]
           {| timer := 450; layer_state := 4 |} 2 initial_state
           {| previous_layer := 1; caps_word_state := false; last_time := 300 |}
           [(300, report_of 1 1)]).
  - vm_compute. reflexivity.
  - vm_compute. reflexivity.
Defined.

(** X6: a call past the window for the layer already reported writes
    nothing but still restarts the window: a call for any other layer
    that follows it by less than 200 is dropped, with [previous_layer]
    left at the old layer. *)
Theorem unchanged_layer_restarts_window (ghl : Z -> Z)
    (fw1 fw2 : firmware) (layer : Z) (s : state) :
  200 <= sub32 (timer fw1) (last_time s) ->
  sub32 (timer fw2) (timer fw1) < 200 ->
  run ghl [(fw1, LayerChange (previous_layer s)); (fw2, LayerChange layer)] s
    = Some (set_last_time (timer fw1) s, []).
Proof.
  intros H1 H2. cbn [run dispatch].
  rewrite layer_change_same by (exact H1 || reflexivity).
  rewrite layer_change_debounced by exact H2. reflexivity.
Qed.

Lemma unchanged_layer_restarts_window_witness :
  run Z.log2
    [({| timer := 1000; layer_state := 4 |},
      LayerChange
        (previous_layer
           {| previous_layer := 2; caps_word_state := false;
              last_time := 300 |}));
     ({| timer := 1100; layer_state := 8 |}, LayerChange 3)]
    {| previous_layer := 2; caps_word_state := false; last_time := 300 |}
  = Some (set_last_time
            (timer {| timer := 1000; layer_state := 4 |})
            {| previous_layer := 2; caps_word_state := false;
               last_time := 300 |}, []).
Proof.
  apply (unchanged_layer_restarts_window Z.log2
           {| timer := 1000; layer_state := 4 |}
           {| timer := 1100; layer_state := 8 |} 3
           {| previous_layer := 2; caps_word_state := false;
              last_time := 300 |}).
  - vm_compute. discriminate.
  - vm_compute. reflexivity.
Defined.

(** ** The two kinds of notification do not disturb each other *)

Ltac statics :=
  cbn [last_time previous_layer caps_word_state
       set_last_time set_previous_layer set_caps_word_state].

Ltac one_call :=
  first
    [ rewrite layer_change_debounced by (statics; assumption)
    | rewrite layer_change_sent by (statics; assumption)
    | rewrite layer_change_same by (statics; assumption)
    | rewrite caps_word_on_edge by (statics; (assumption || reflexivity))
    | rewrite caps_word_on_again by (statics; (assumption || reflexivity))
    | rewrite caps_word_off_edge by (statics; (assumption || reflexivity))
    | rewrite caps_word_off_again by (statics; (assumption || reflexivity)) ].

(** X1: a Caps Word call and a layer-change call commute: made in
    either order from the same statics they end in the same statics, and
    each writes exactly what it writes when made alone, the clock
    readings of the two calls being whatever they are. *)
Theorem caps_word_commutes_with_layer_change (ghl : Z -> Z) (c : call)
    (fw1 fw2 : firmware) (layer : Z) (s : state) :
  is_caps_word c ->
  exists (s' sa sb : state) (a b : list (Z * report)),
    run ghl [(fw1, c)] s = Some (sa, a) /\
    run ghl [(fw2, LayerChange layer)] s = Some (sb, b) /\
    run ghl [(fw1, c); (fw2, LayerChange layer)] s = Some (s', a ++ b) /\
    run ghl [(fw2, LayerChange layer); (fw1, c)] s = Some (s', b ++ a).
Proof.
  intros Hc. destruct c as [l | | | data len]; try contradiction;
    destruct (caps_word_state s) eqn:E;
    destruct (layer_change_cases layer fw2 s)
      as [[Hd _] | [[Hge [Hne _]] | [Hge [He _]]]];
    cbn [run dispatch]; repeat one_call;
    eexists _, _, _, _, _; repeat split.
Qed.

Lemma caps_word_commutes_with_layer_change_witness :
  exists (s' sa sb : state) (a b : list (Z * report)),
    run Z.log2 [({| timer := 700; layer_state := 4 |}, CapsWordOn)]
      initial_state = Some (sa, a) /\
    run Z.log2 [({| timer := 900; layer_state := 4 |}, LayerChange 2)]
      initial_state = Some (sb, b) /\
    run Z.log2 [({| timer := 700; layer_state := 4 |}, CapsWordOn);
                ({| timer := 900; layer_state := 4 |}, LayerChange 2)]
      initial_state = Some (s', a ++ b) /\
    run Z.log2 [({| timer := 900; layer_state := 4 |}, LayerChange 2);
                ({| timer := 700; layer_state := 4 |}, CapsWordOn)]
      initial_state = Some (s', b ++ a).
Proof.
  apply (caps_word_commutes_with_layer_change Z.log2 CapsWordOn
           {| timer := 700; layer_state := 4 |}
           {| timer := 900; layer_state := 4 |} 2 initial_state).
  exact I.
Defined.

(** ** Queries are never held back *)

(** X10: the reply to a query is neither debounced nor compared with
    an earlier reply: a run of query packets writes one reply for each,
    in order, each with the highest layer at its own call, and leaves
    the statics as they were. *)
Theorem queries_always_answered (ghl : Z -> Z) (cs : list (firmware * call))
    (s : state) :
  Forall (fun p => is_query (snd p)) cs ->
  run ghl cs s = Some (s, replies ghl cs).
Proof.
  induction cs as [| [fw c] cs IH]; intros Hq.
  - reflexivity.
  - apply Forall_cons_1 in Hq as [Hc Hq]. simpl in Hc.
    destruct c as [l | | | data len]; try contradiction.
    cbn [run dispatch]. rewrite receive_query by exact Hc.
    rewrite (IH Hq). reflexivity.
Qed.

Lemma queries_always_answered_witness :
  run Z.log2
    [({| timer := 10; layer_state := 8 |}, Receive [99; 0] 32);
     ({| timer := 10; layer_state := 8 |}, Receive [99; 1] 32);
     ({| timer := 11; layer_state := 2 |}, Receive [99] 0)]
    initial_state
  = Some (initial_state,
          replies Z.log2
            [({| timer := 10; layer_state := 8 |}, Receive [99; 0] 32);
             ({| timer := 10; layer_state := 8 |}, Receive [99; 1] 32);
             ({| timer := 11; layer_state := 2 |}, Receive [99] 0)]).
Proof.
  apply (queries_always_answered Z.log2
           [({| timer := 10; layer_state := 8 |}, Receive [99; 0] 32);
            ({| timer := 10; layer_state := 8 |}, Receive [99; 1] 32);
            ({| timer := 11; layer_state := 2 |}, Receive [99] 0)]
           initial_state).
  repeat constructor.
Defined.

(** ** The arithmetic of the debounce test *)

Lemma sub32_of_counts (ms0 ms : Z) :
  ms0 <= ms < ms0 + 2 ^ 32 ->
  sub32 (ms mod 2 ^ 32) (ms0 mod 2 ^ 32) = ms - ms0.
Proof.
  intros H. unfold sub32. rewrite <- Zminus_mod. apply Z.mod_small. lia.
Qed.

Lemma sub32_backwards (t last : Z) :
  is_uint32 t -> is_uint32 last -> t < last ->
  sub32 t last = t - last + 2 ^ 32.
Proof.
  unfold is_uint32, sub32. intros Ht Hl Hlt.
  rewrite <- (Z_mod_plus_full (t - last) 1 (2 ^ 32)).
  apply Z.mod_small. lia.
Qed.

(** X7: the debounce test is exact across a wrap of a 32-bit
    millisecond counter: when [last_time] and the clock reading are the
    low 32 bits of two counts [ms0 <= ms] less than 2^32 apart, the call
    is dropped exactly when [ms - ms0 < 200], and otherwise takes the
    reading as the new [last_time] and reports a layer that is new. *)
Theorem debounce_exact_across_wrap (layer ms0 ms : Z) (fw : firmware)
    (s : state) :
  last_time s = ms0 mod 2 ^ 32 ->
  timer fw = ms mod 2 ^ 32 ->
  ms0 <= ms < ms0 + 2 ^ 32 ->
  (ms - ms0 < 200 ->
   accessibility_send_layer_change layer fw s = Some (tt, s, []))
  /\
  (200 <= ms - ms0 ->
   exists s' out,
     accessibility_send_layer_change layer fw s = Some (tt, s', out) /\
     last_time s' = timer fw /\
     (layer <> previous_layer s -> out = [report_of 1 layer])).
Proof.
  intros Hl Ht Hms.
  pose proof (sub32_of_counts ms0 ms Hms) as Hsub.
  rewrite <- Hl, <- Ht in Hsub. split; intros Hcmp.
  - apply layer_change_debounced. lia.
  - destruct (layer_change_cases layer fw s)
      as [[Hd _] | [[_ [_ H]] | [_ [He H]]]]; [lia | |];
      eexists _, _; (split; [exact H |]); split;
      solve [reflexivity | intros; (reflexivity || congruence)].
Qed.

Lemma debounce_exact_across_wrap_witness :
  (2 ^ 32 + 100 - (2 ^ 32 - 50) < 200 ->
   accessibility_send_layer_change 7 {| timer := 100; layer_state := 0 |}
     {| previous_layer := 2; caps_word_state := false;
        last_time := 2 ^ 32 - 50 |}
   = Some (tt,
           {| previous_layer := 2; caps_word_state := false;
              last_time := 2 ^ 32 - 50 |}, []))
  /\
  (200 <= 2 ^ 32 + 100 - (2 ^ 32 - 50) ->
   exists s' out,
     accessibility_send_layer_change 7 {| timer := 100; layer_state := 0 |}
       {| previous_layer := 2; caps_word_state := false;
          last_time := 2 ^ 32 - 50 |}
     = Some (tt, s', out) /\
     last_time s' = timer {| timer := 100; layer_state := 0 |} /\
     (7 <> previous_layer
             {| previous_layer := 2; caps_word_state := false;
                last_time := 2 ^ 32 - 50 |} ->
      out = [report_of 1 7])).
Proof.
  apply (debounce_exact_across_wrap 7 (2 ^ 32 - 50) (2 ^ 32 + 100)
           {| timer := 100; layer_state := 0 |}
           {| previous_layer := 2; caps_word_state := false;
              last_time := 2 ^ 32 - 50 |}).
  - vm_compute. reflexivity.
  - vm_compute. reflexivity.
  - lia.
Defined.

(** X8: a clock reading below [last_time] by no more than 2^32 - 200
    makes the unsigned difference wrap to 200 or more, so the call is
    never debounced: it reports a new layer and takes the lower reading
    as [last_time].  This is what a counter narrower than 32 bits gives
    when it wraps: both values below 2^16, the reading the smaller. *)
Theorem backwards_reading_passes_window (layer : Z) (fw : firmware)
    (s : state) :
  is_uint32 (timer fw) -> is_uint32 (last_time s) ->
  timer fw < last_time s ->
  last_time s - timer fw <= 2 ^ 32 - 200 ->
  layer <> previous_layer s ->
  accessibility_send_layer_change layer fw s =
    Some (tt, set_last_time (timer fw) (set_previous_layer layer s),
          [report_of 1 layer]).
Proof.
  intros Ht Hl Hlt Hgap Hne.
  apply layer_change_sent; [| exact Hne].
  rewrite sub32_backwards by assumption. lia.
Qed.

Lemma backwards_reading_passes_window_witness :
  accessibility_send_layer_change 3 {| timer := 100; layer_state := 8 |}
    {| previous_layer := 1; caps_word_state := false; last_time := 65500 |}
  = Some (tt,
          set_last_time (timer {| timer := 100; layer_state := 8 |})
            (set_previous_layer 3
               {| previous_layer := 1; caps_word_state := false;
                  last_time := 65500 |}),
          [report_of 1 3]).
Proof.
  apply (backwards_reading_passes_window 3
           {| timer := 100; layer_state := 8 |}
           {| previous_layer := 1; caps_word_state := false;
              last_time := 65500 |}).
  - unfold is_uint32. simpl. lia.
  - unfold is_uint32. simpl. lia.
  - simpl. lia.
  - simpl. lia.
  - simpl. lia.
Defined.

(** ** How many layer-change reports there can be *)

Lemma layer_run_count (ghl : Z -> Z) (calls : list (firmware * Z)) (T : Z) :
  forall s : state,
    is_uint32 (last_time s) ->
    Forall is_uint32 (clock_readings calls) ->
    StronglySorted Z.le (last_time s :: clock_readings calls) ->
    last_time s <= T ->
    Forall (fun t => t <= T) (clock_readings calls) ->
    exists s' tr,
      run ghl (layer_calls calls) s = Some (s', tr) /\
      200 * Z.of_nat (length tr) <= T - last_time s.
Proof.
  unfold is_uint32.
  induction calls as [| [fw layer] calls IH]; intros s Hs Hr Hm HT Hmax.
  - simpl. eexists _, _. split; [reflexivity |]. simpl. lia.
  - cbn [clock_readings map fst] in Hr, Hm, Hmax.
    fold (clock_readings calls) in Hr, Hm, Hmax.
    apply Forall_cons_1 in Hr as [Ht Hr].
    apply Forall_cons_1 in Hmax as [HtT Hmax].
    apply StronglySorted_inv in Hm as [Hm Hlast].
    apply Forall_cons_1 in Hlast as [Hle Hlast].
    cbn [layer_calls map run dispatch fst snd]. fold (layer_calls calls).
    destruct (layer_change_cases layer fw s)
      as [[_ H] | [[Hge [_ H]] | [Hge [_ H]]]]; rewrite H.
    + destruct (IH s Hs Hr) as (s' & tr & -> & Hn); [| exact HT | exact Hmax |].
      { constructor; [now apply StronglySorted_inv in Hm | exact Hlast]. }
      eexists _, _. split; [reflexivity |]. exact Hn.
    + rewrite sub32_small in Hge by lia.
      destruct (IH (set_last_time (timer fw) (set_previous_layer layer s)))
        as (s' & tr & -> & Hn);
        [exact Ht | exact Hr | exact Hm | exact HtT | exact Hmax |].
      simpl in Hn.
      eexists _, _. split; [reflexivity |].
      cbn [stamp map app length]. lia.
    + rewrite sub32_small in Hge by lia.
      destruct (IH (set_last_time (timer fw) s))
        as (s' & tr & -> & Hn);
        [exact Ht | exact Hr | exact Hm | exact HtT | exact Hmax |].
      simpl in Hn.
      eexists _, _. split; [reflexivity |].
      cbn [stamp map app length]. lia.
Qed.

(** X9: with clock readings that never decrease, a run of layer-change
    calls whose readings are all at most [T] writes no report before
    [last_time + 200] and at most [(T - last_time) / 200] reports in
    all; from startup, none before reading 200 and no more than
    [T / 200]. *)
Theorem layer_reports_rate_limited (ghl : Z -> Z)
    (calls : list (firmware * Z)) (s : state) (T : Z) :
  is_uint32 (last_time s) ->
  Forall is_uint32 (clock_readings calls) ->
  Sorted Z.le (last_time s :: clock_readings calls) ->
  last_time s <= T ->
  Forall (fun t => t <= T) (clock_readings calls) ->
  exists s' tr,
    run ghl (layer_calls calls) s = Some (s', tr) /\
    Forall (fun t => last_time s + 200 <= t) (write_times tr) /\
    Z.of_nat (length tr) <= (T - last_time s) / 200.
Proof.
  intros Hs Hr Hm HT Hmax.
  apply Sorted_StronglySorted in Hm; [| intros x y z; apply Z.le_trans].
  destruct (layer_run_spaced ghl calls s Hs Hr Hm) as (s' & tr & Hrun & Hall & _).
  destruct (layer_run_count ghl calls T s Hs Hr Hm HT Hmax)
    as (s2 & tr2 & Hrun2 & Hn).
  rewrite Hrun in Hrun2. injection Hrun2 as <- <-.
  exists s', tr. split; [exact Hrun |]. split; [exact Hall |].
  apply Z.div_le_lower_bound; lia.
Qed.

Lemma layer_reports_rate_limited_witness :
  exists s' tr,
    run Z.log2
      (layer_calls [({| timer := 150; layer_state := 2 |}, 1);
                    ({| timer := 250; layer_state := 2 |}, 1);
                    ({| timer := 300; layer_state := 4 |}, 2);
                    ({| timer := 450; layer_state := 8 |}, 3);
                    ({| timer := 640; layer_state := 16 |}, 4);
                    ({| timer := 700; layer_state := 32 |}, 5)])
      initial_state = Some (s', tr) /\
    Forall (fun t => last_time initial_state + 200 <= t) (write_times tr) /\
    Z.of_nat (length tr) <= (700 - last_time initial_state) / 200.
Proof.
  apply (layer_reports_rate_limited Z.log2
           [({| timer := 150; layer_state := 2 |}, 1);
            ({| timer := 250; layer_state := 2 |}, 1);
            ({| timer := 300; layer_state := 4 |}, 2);
            ({| timer := 450; layer_state := 8 |}, 3);
            ({| timer := 640; layer_state := 16 |}, 4);
            ({| timer := 700; layer_state := 32 |}, 5)]
           initial_state 700).
  - unfold is_uint32. simpl. lia.
  - unfold is_uint32. repeat constructor; simpl; lia.
  - repeat constructor; simpl; lia.
  - simpl. lia.
  - repeat constructor; simpl; lia.
Defined.

(** ** The Caps Word state a host holds is never stale *)

Lemma run_caps_word_state (ghl : Z -> Z) (cs : list (firmware * call)) :
  forall (s s' : state) (tr : list (Z * report)),
    run ghl cs s = Some (s', tr) ->
    caps_word_state s' = asked_caps_word (caps_word_state s) cs.
Proof.
  unfold asked_caps_word.
  induction cs as [| [fw c] cs IH]; intros s s' tr Hr.
  - simpl in Hr. injection Hr as <- <-. reflexivity.
  - apply run_cons_inv in Hr as (s1 & out1 & tr' & Hc & Hr & ->).
    rewrite (IH s1 s' tr' Hr). cbn [fold_left snd]. f_equal.
    destruct c as [layer | | | data len]; simpl in Hc.
    + destruct (layer_change_cases layer fw s)
        as [[_ H] | [[_ [_ H]] | [_ [_ H]]]];
        rewrite H in Hc; injection Hc as <- <-; reflexivity.
    + destruct (caps_word_state s) eqn:E.
      * rewrite caps_word_on_again in Hc by assumption.
        injection Hc as <- <-. exact E.
      * rewrite caps_word_on_edge in Hc by assumption.
        injection Hc as <- <-. reflexivity.
    + destruct (caps_word_state s) eqn:E.
      * rewrite caps_word_off_edge in Hc by assumption.
        injection Hc as <- <-. reflexivity.
      * rewrite caps_word_off_again in Hc by assumption.
        injection Hc as <- <-. exact E.
    + destruct (dispatch_outcomes ghl (Receive data len) fw s s1 out1 Hc)
        as [(_ & _ & Hw & _) | [(l & Hl & _) | [(Hl & _) | [(Hl & _)
           | (d & n & _ & _ & ->)]]]]; try discriminate Hl;
        [exact Hw | reflexivity].
Qed.

(** X11: the Caps Word state is never stale: after any run
    [caps_word_state] is what the last Caps Word call of the run asked
    for, and from startup the last Caps Word report written, if there is
    one, carries exactly that state; when none was written the state
    asked for is the initial off. *)
Theorem caps_word_state_is_current (ghl : Z -> Z)
    (cs : list (firmware * call)) (s s' : state) (tr : list (Z * report)) :
  run ghl cs s = Some (s', tr) ->
  caps_word_state s' = asked_caps_word (caps_word_state s) cs /\
  (s = initial_state ->
   from_option (Z.eqb 1) false (last_sent 2 (reports tr))
     = asked_caps_word false cs).
Proof.
  intros Hr. pose proof (run_caps_word_state ghl cs s s' tr Hr) as Hw.
  split; [exact Hw |]. intros ->.
  destruct (run_tracks ghl cs initial_state s' [] tr tracks_initial Hr)
    as [_ Ht].
  simpl in Ht. rewrite <- Ht. exact Hw.
Qed.

Lemma caps_word_state_is_current_witness :
  caps_word_state
    {| previous_layer := 255; caps_word_state := false; last_time := 0 |}
  = asked_caps_word (caps_word_state initial_state)
      [({| timer := 5; layer_state := 1 |}, CapsWordOn);
       ({| timer := 6; layer_state := 1 |}, LayerChange 2);
       ({| timer := 7; layer_state := 1 |}, CapsWordOn);
       ({| timer := 8; layer_state := 1 |}, CapsWordOff);
       ({| timer := 9; layer_state := 1 |}, Receive [5] 1)] /\
  (initial_state = initial_state ->
   from_option (Z.eqb 1) false
     (last_sent 2 (reports [(5, report_of 2 1); (8, report_of 2 0)]))
   = asked_caps_word false
       [({| timer := 5; layer_state := 1 |}, CapsWordOn);
        ({| timer := 6; layer_state := 1 |}, LayerChange 2);
        ({| timer := 7; layer_state := 1 |}, CapsWordOn);
        ({| timer := 8; layer_state := 1 |}, CapsWordOff);
        ({| timer := 9; layer_state := 1 |}, Receive [5] 1)]).
Proof.
  apply (caps_word_state_is_current Z.log2
           [({| timer := 5; layer_state := 1 |}, CapsWordOn);
            ({| timer := 6; layer_state := 1 |}, LayerChange 2);
            ({| timer := 7; layer_state := 1 |}, CapsWordOn);
            ({| timer := 8; layer_state := 1 |}, CapsWordOff);
            ({| timer := 9; layer_state := 1 |}, Receive [5] 1)]
           initial_state).
  vm_compute. reflexivity.
Defined.
